(** * matrices-py: shape-checked matrix kernels

    A shallow embedding of [matrices/shapes/abstract.py],
    [matrices/abstract.py] and the default methods of
    [matrices/protocols.py], followed by the properties of [matmap],
    [matcmp], [matmul] and of the comparison and subtraction operators
    built on them. *)

From stdpp Require Import base decidable option list numbers gmap.
From Stdlib Require Import ZArith Lia.

Open Scope Z_scope.
Open Scope nat_scope.

(** ** Shapes ([matrices/shapes/abstract.py]) *)

Module ShapeLike.

(** [ShapeLike.__getitem__] is abstract; a shape is the pair of
    dimensions it answers at keys 0 and 1. *)
Record t := Shape { dim0 : nat; dim1 : nat }.

Definition nrows (self : t) : nat := dim0 self.
Definition ncols (self : t) : nat := dim1 self.

(** [self[0] == other[0] and self[1] == other[1]] *)
Definition __eq__ (self other : t) : bool :=
  (dim0 self =? dim0 other) && (dim1 self =? dim1 other).

(** [ShapeLike] defines no [__ne__]: [u != v] falls back to
    [object.__ne__], which inverts [__eq__]. *)
Definition __ne__ (self other : t) : bool := negb (__eq__ self other).

(** [__iter__] yields [self[0]] then [self[1]]; it is what the tuple
    unpacking [nrows, ncols = shape] consumes. *)
Definition __iter__ (self : t) : nat * nat := (dim0 self, dim1 self).

#[global] Instance eq_dec : EqDecision t.
Proof. solve_decision. Defined.

End ShapeLike.

Abbreviation Shape := ShapeLike.Shape.

(** ** Exceptions and the error monad *)

(** The two [ValueError]s of [abstract.py] differ by their arguments:
    the shape check formats both shapes into its message, the
    inner-dimension check raises the bare class. *)
Inductive exn :=
| ValueError (args : option (ShapeLike.t * ShapeLike.t))
| IndexError
| TypeError.

Definition ShapeMismatch (u v : ShapeLike.t) : exn := ValueError (Some (u, v)).
Definition DegenerateDimension : exn := ValueError None.

Inductive Result (A : Type) :=
| Return (a : A)
| Raise (e : exn).
Arguments Return {A} a.
Arguments Raise {A} e.

#[global] Instance Result_ret : MRet Result := @Return.
#[global] Instance Result_bind : MBind Result :=
  fun A B f m => match m with Return a => f a | Raise e => Raise e end.

(** A method result: a value, or the [NotImplemented] singleton. *)
Inductive Ret (A : Type) :=
| Value (a : A)
| NotImplemented.
Arguments Value {A} a.
Arguments NotImplemented {A}.

(** ** Element operators

    [T] is the type of element objects: Leibniz equality on [T] is
    object identity ([x is y]); the operators the kernels apply to
    elements are those of the element's own class. *)

Class PyEq (T : Type) := py_eq : T → T → bool.
Class PyOrd (T : Type) := { py_lt : T → T → bool; py_gt : T → T → bool }.
Class PyArith (T : Type) := { py_add : T → T → T; py_mul : T → T → T }.

Definition py_is {A : Type} `{EqDecision A} (x y : A) : bool :=
  bool_decide (x = y).

(** ** Lazy sequences

    An iterator is represented by the outcomes of its successive
    [next] calls, up to exhaustion; a consumer stops at the first
    outcome that raises. *)
Abbreviation lazyseq A := (list (Result A)).

(** [map(func, s, t)]: advance [s], then [t], then apply [func];
    stop when either is exhausted. *)
Fixpoint py_map2 {A B C : Type} (func : A → B → C)
    (s : lazyseq A) (t : lazyseq B) : lazyseq C :=
  match s, t with
  | rx :: s', ry :: t' =>
      (x ← rx; y ← ry; mret (func x y)) :: py_map2 func s' t'
  | _, _ => @nil (Result C)
  end.

(** [zip(s, t)] *)
Definition py_zip {A B : Type} (s : lazyseq A) (t : lazyseq B)
  : lazyseq (A * B) := py_map2 pair s t.

(** [all(s)]: false at the first falsy item, true on exhaustion. *)
Fixpoint py_all (s : lazyseq bool) : Result bool :=
  match s with
  | [] => Return true
  | r :: s' => b ← r; if (b : bool) then py_all s' else Return false
  end.

(** [functools.reduce(function, s)] without initial value. *)
Fixpoint reduce_from {A : Type} (function : A → A → A) (acc : A)
    (s : lazyseq A) : Result A :=
  match s with
  | [] => Return acc
  | r :: s' => x ← r; reduce_from function (function acc x) s'
  end.

Definition reduce {A : Type} (function : A → A → A) (s : lazyseq A)
  : Result A :=
  match s with
  | [] => Raise TypeError
  | r :: s' => acc ← r; reduce_from function acc s'
  end.

(** ** Matrices ([matrices/abstract.py]) *)

(** Modelled from the spec: the concrete matrix class (generic.py) is
    missing, so the abstract [shape] and [__getitem__] of [MatrixLike]
    follow the data model: a shape and a flat row-major storage.
    [ident] is the object's identity, so that two distinct objects may
    hold the same shape and items. *)
Record Matrix (T : Type) := {
  ident : nat;
  shape : ShapeLike.t;
  items : list T;
}.
Arguments ident {T} _.
Arguments shape {T} _.
Arguments items {T} _.

#[global] Instance Matrix_eq_dec {T} `{EqDecision T} : EqDecision (Matrix T).
Proof. solve_decision. Defined.

(** The right operand of a binary special method: a matrix or any
    other object. *)
Inductive operand (T : Type) :=
| OMatrix (b : Matrix T)
| OOther (x : T).
Arguments OMatrix {T} b.
Arguments OOther {T} x.

(** The storage invariant of the data model. *)
Definition well_formed {T} (a : Matrix T) : Prop :=
  length (items a) = ShapeLike.dim0 (shape a) * ShapeLike.dim1 (shape a).

Section MatrixLike.
Context {T : Type} `{EqDecision T, PyEq T, PyOrd T, PyArith T}.

Definition nrows (self : Matrix T) : nat := ShapeLike.nrows (shape self).
Definition ncols (self : Matrix T) : nat := ShapeLike.ncols (shape self).

Definition size (self : Matrix T) : nat :=
  let '(nrows, ncols) := ShapeLike.__iter__ (shape self) in
  nrows * ncols.

(** Modelled from the spec: scalar indexing, a key inside the storage
    maps to its element and any other key is an [IndexError]. *)
Definition __getitem__ (self : Matrix T) (key : nat) : Result T :=
  match items self !! key with
  | Some x => Return x
  | None => Raise IndexError
  end.

Definition __len__ (self : Matrix T) : nat := size self.

Definition __iter__ (self : Matrix T) : lazyseq T :=
  let keys := seq 0 (size self) in
  map (__getitem__ self) keys.

Definition matmap {U : Type} (func : T → T → U) (a b : Matrix T)
  : Result (lazyseq U) :=
  let u := shape a in
  let v := shape b in
  if ShapeLike.__ne__ u v then Raise (ShapeMismatch u v)
  else Return (py_map2 func (__iter__ a) (__iter__ b)).

(** The body of the [for x, y in zip(a, b)] loop of [matcmp]. *)
Fixpoint matcmp_loop (s : lazyseq (T * T)) : Result Z :=
  match s with
  | [] => Return 0%Z
  | r :: s' =>
      '(x, y) ← r;
      if py_lt x y then Return (-1)%Z
      else if py_gt x y then Return 1%Z
      else matcmp_loop s'
  end.

Definition matcmp (a b : Matrix T) : Result Z :=
  let u := shape a in
  let v := shape b in
  if ShapeLike.__ne__ u v then Raise (ShapeMismatch u v)
  else matcmp_loop (py_zip (__iter__ a) (__iter__ b)).

(** The operators of [MatrixLike]. *)

Definition is_operand (self : Matrix T) (other : operand T) : bool :=
  match other with
  | OMatrix b => py_is self b
  | OOther _ => false
  end.

Definition __eq__ (self : Matrix T) (other : operand T)
  : Result (Ret bool) :=
  if is_operand self other then Return (Value true)
  else match other with
       | OMatrix b =>
           s ← matmap (fun x y => py_is x y || py_eq x y) self b;
           r ← py_all s;
           mret (Value r)
       | OOther _ => Return NotImplemented
       end.

(** [MatrixLike] defines no [__ne__]; [object.__ne__] inverts
    [__eq__] unless it is [NotImplemented]. *)
Definition __ne__ (self : Matrix T) (other : operand T)
  : Result (Ret bool) :=
  r ← __eq__ self other;
  match r with
  | Value t => Return (Value (negb t))
  | NotImplemented => Return NotImplemented
  end.

Definition __lt__ (self other : Matrix T) : Result bool :=
  c ← matcmp self other; mret (c <? 0)%Z.
Definition __le__ (self other : Matrix T) : Result bool :=
  c ← matcmp self other; mret (c <=? 0)%Z.
Definition __gt__ (self other : Matrix T) : Result bool :=
  c ← matcmp self other; mret (c >? 0)%Z.
Definition __ge__ (self other : Matrix T) : Result bool :=
  c ← matcmp self other; mret (c >=? 0)%Z.

(** *** [matmul], a generator function *)

(** The term [a[i * n + k] * b[k * q + j]] of the inner [map]. *)
Definition matmul_term (a b : Matrix T) (n q i j k : nat) : Result T :=
  x ← __getitem__ a (i * n + k);
  y ← __getitem__ b (k * q + j);
  mret (py_mul x y).

(** The expression yielded at position [(i, j)]. *)
Definition matmul_entry (a b : Matrix T) (n q i j : nat) : Result T :=
  let kx := seq 0 n in
  reduce py_add (map (matmul_term a b n q i j) kx).

(** The frame of a [matmul] generator: created and not yet started,
    suspended at the [yield] with the rest of the iteration space of
    the two [for] loops, or closed. *)
Inductive generator :=
| GEN_CREATED (a b : Matrix T)
| GEN_SUSPENDED (a b : Matrix T) (n q : nat) (rest : list (nat * nat))
| GEN_CLOSED.

(** What one [next] call observes. *)
Inductive signal :=
| Yield (v : T)
| StopIteration
| Raised (e : exn).

(** Calling a generator function runs none of its body. *)
Definition matmul (a b : Matrix T) : generator := GEN_CREATED a b.

(** Run the loops up to the next [yield]. *)
Definition resume (a b : Matrix T) (n q : nat) (rest : list (nat * nat))
  : signal * generator :=
  match rest with
  | [] => (StopIteration, GEN_CLOSED)
  | (i, j) :: rest' =>
      match matmul_entry a b n q i j with
      | Return v => (Yield v, GEN_SUSPENDED a b n q rest')
      | Raise e => (Raised e, GEN_CLOSED)
      end
  end.

Definition next (g : generator) : signal * generator :=
  match g with
  | GEN_CREATED a b =>
      let u := shape a in
      let v := shape b in
      let '(m, n) := ShapeLike.__iter__ u in
      let '(p, q) := ShapeLike.__iter__ v in
      if negb (n =? p) then (Raised (ShapeMismatch u v), GEN_CLOSED)
      else if n =? 0 then (Raised DegenerateDimension, GEN_CLOSED)
      else
        let ix := seq 0 m in
        let jx := seq 0 q in
        resume a b n q (i ← ix; j ← jx; [(i, j)])
  | GEN_SUSPENDED a b n q rest => resume a b n q rest
  | GEN_CLOSED => (StopIteration, GEN_CLOSED)
  end.

(** [list(g)]: call [next] until exhaustion; [None] when the fuel
    runs out first. *)
Fixpoint consume (fuel : nat) (g : generator) : option (Result (list T)) :=
  match fuel with
  | O => None
  | S fuel' =>
      match next g with
      | (Yield v, g') =>
          match consume fuel' g' with
          | Some (Return vs) => Some (Return (v :: vs))
          | other => other
          end
      | (StopIteration, _) => Some (Return [])
      | (Raised e, _) => Some (Raise e)
      end
  end.

End MatrixLike.

(** ** Default methods of the numeric protocols ([matrices/protocols.py]) *)

Module protocols.

(** A class deriving from [ComplexLike] (or [ComplexMatrixLike]): it
    supplies the abstract [+] and unary [-] and may define its own
    [__sub__] and [__rsub__]. *)
Record subclass (V : Type) := {
  cls_add : V → V → Result V;
  cls_neg : V → Result V;
  cls_sub : option (V → V → Result V);
  cls_rsub : option (V → V → Result V);
}.
Arguments cls_add {V} _.
Arguments cls_neg {V} _.
Arguments cls_sub {V} _.
Arguments cls_rsub {V} _.

Module ComplexLike.
Section Defaults.
Context {V : Type} (C : subclass V).

(** [return self + -other] *)
Definition __sub__ (self other : V) : Result V :=
  n ← cls_neg C other; cls_add C self n.

(** [return other + -self] *)
Definition __rsub__ (self other : V) : Result V :=
  n ← cls_neg C self; cls_add C other n.
End Defaults.
End ComplexLike.

Module ComplexMatrixLike.
Section Defaults.
Context {V : Type} (C : subclass V).

(** [return self + -other] *)
Definition __sub__ (self other : V) : Result V :=
  n ← cls_neg C other; cls_add C self n.

(** [return other + -self] *)
Definition __rsub__ (self other : V) : Result V :=
  n ← cls_neg C self; cls_add C other n.
End Defaults.
End ComplexMatrixLike.

(** Method resolution: the subclass's own definition when it has
    one, the protocol's default otherwise. *)
Definition resolve_sub {V} (inherited : subclass V → V → V → Result V)
    (C : subclass V) : V → V → Result V :=
  default (inherited C) (cls_sub C).
Definition resolve_rsub {V} (inherited : subclass V → V → V → Result V)
    (C : subclass V) : V → V → Result V :=
  default (inherited C) (cls_rsub C).

Module IntegralLike.
Section Defaults.
Context {V : Type}.
(** The abstract [__int__], which [int(self)] calls. *)
Variable __int__ : V → Result Z.

(** [return int(self)] *)
Definition __index__ (self : V) : Result Z := __int__ self.
End Defaults.
End IntegralLike.

End protocols.

(** ** Element classes used in the examples *)

(** Python [int]. *)
#[global] Instance int_eq : PyEq Z := Z.eqb.
#[global] Instance int_ord : PyOrd Z := {| py_lt := Z.ltb; py_gt := Z.gtb |}.
#[global] Instance int_arith : PyArith Z := {| py_add := Z.add; py_mul := Z.mul |}.

(** Python [frozenset]: [<] and [>] are proper inclusion, a partial
    order. *)
Definition frozenset := gset positive.
#[global] Instance frozenset_eq_dec : EqDecision frozenset := _.
#[global] Instance frozenset_eq : PyEq frozenset :=
  fun x y => bool_decide (x = y).
#[global] Instance frozenset_ord : PyOrd frozenset :=
  {| py_lt := fun x y => bool_decide (x ⊂ y);
     py_gt := fun x y => bool_decide (y ⊂ x) |}.

(** A number class with a not-a-number object, whose [==] is not
    reflexive. *)
Inductive number := NaN | Finite (z : Z).
#[global] Instance number_eq_dec : EqDecision number.
Proof. solve_decision. Defined.
#[global] Instance number_eq : PyEq number :=
  fun x y => match x, y with Finite u, Finite v => Z.eqb u v | _, _ => false end.

(** An integral-like class holding a ratio, whose [__int__] truncates
    towards zero. *)
Record ratio := { numer : Z; denom : positive }.
Definition ratio_int (r : ratio) : Result Z :=
  Return (Z.quot (numer r) (Z.pos (denom r))).
(** [r] is exactly the integer [z]. *)
Definition ratio_is (r : ratio) (z : Z) : Prop :=
  numer r = (z * Z.pos (denom r))%Z.

(** Python [int] as a class that implements [+] and unary [-] and
    inherits both subtractions. *)
Definition int_class : protocols.subclass Z :=
  {| protocols.cls_add := fun x y => Return (x + y)%Z;
     protocols.cls_neg := fun x => Return (- x)%Z;
     protocols.cls_sub := None;
     protocols.cls_rsub := None |}.

(** ** Specification vocabulary *)

Section Vocabulary.
Context {T : Type} `{EqDecision T, PyEq T, PyOrd T, PyArith T}.

(** Entry [k] of the storage, with [d] outside it. *)
Definition cell (d : T) (a : Matrix T) (k : nat) : T := nth k (items a) d.

(** The sum over [k] in [[0, n)] of [a[i*n+k] * b[k*q+j]], folded
    from the left starting at the term for [k = 0]. *)
Definition dot (d : T) (a b : Matrix T) (n q i j : nat) : T :=
  fold_left
    (fun acc k => py_add acc (py_mul (cell d a (i * n + k)) (cell d b (k * q + j))))
    (seq 1 (n - 1))
    (py_mul (cell d a (i * n)) (cell d b j)).

(** No pair before index [k] is decided by [<] or [>]. *)
Definition undecided_before (xs ys : list T) (k : nat) : Prop :=
  ∀ j x y, j < k → xs !! j = Some x → ys !! j = Some y →
           py_lt x y = false ∧ py_gt x y = false.

(** [k] is the first index whose pair is related by [<]. *)
Definition lex_less (xs ys : list T) : Prop :=
  ∃ k x y, undecided_before xs ys k ∧ xs !! k = Some x ∧ ys !! k = Some y ∧
           py_lt x y = true.

(** [k] is the first index whose pair is related by [>] (and, [<]
    being tested first, not by [<]). *)
Definition lex_greater (xs ys : list T) : Prop :=
  ∃ k x y, undecided_before xs ys k ∧ xs !! k = Some x ∧ ys !! k = Some y ∧
           py_lt x y = false ∧ py_gt x y = true.

(** No pair at all is related by [<] or [>]. *)
Definition lex_equal (xs ys : list T) : Prop :=
  ∀ k, undecided_before xs ys k.

(** Every pair of elements at the same index is related by [rel]. *)
Definition all_pairs (rel : T → T → bool) (a b : Matrix T) : bool :=
  forallb (fun p => rel p.1 p.2) (zip (items a) (items b)).

(** The element test of [MatrixLike.__eq__]: [x is y or x == y]. *)
Definition same_or_equal (x y : T) : bool := py_is x y || py_eq x y.

(** The operator [op] answers whether all pairs are related by [rel]. *)
Definition all_pairs_operator (op : Matrix T → Matrix T → Result bool)
    (rel : T → T → bool) (a b : Matrix T) : Prop :=
  op a b = Return (all_pairs rel a b).

(** Exactly one of three truth values holds. *)
Definition exactly_one (p q r : bool) : bool :=
  match p, q, r with
  | true, false, false | false, true, false | false, false, true => true
  | _, _, _ => false
  end.

(** Exactly one of [a < b], [a == b], [a > b] holds. *)
Definition trichotomy (a b : Matrix T) : Prop :=
  ∃ l e g, __lt__ a b = Return l ∧ __eq__ a (OMatrix b) = Return (Value e) ∧
           __gt__ a b = Return g ∧ exactly_one l e g = true.

(** The element comparisons form a total order: [>] is the converse
    of [<], and exactly one of [x < y], [x == y], [x > y] holds. *)
Definition total_order : Prop :=
  ∀ x y : T, py_gt x y = py_lt y x ∧
             exactly_one (py_lt x y) (py_eq x y) (py_gt x y) = true.

End Vocabulary.
Arguments total_order T {_ _}.

(** The index conversion is lossless: the exact integer when the value
    is one, a failure when it is not. *)
Definition lossless_index {V : Type} (is_integer : V → Z → Prop)
    (index : V → Result Z) : Prop :=
  ∀ x, (∀ z, is_integer x z → index x = Return z) ∧
       ((∀ z, ¬ is_integer x z) → ∃ e, index x = Raise e).

(** ** Example matrices *)

Definition mat {T} (id m n : nat) (xs : list T) : Matrix T :=
  {| ident := id; shape := Shape m n; items := xs |}.

Definition A22 : Matrix Z := mat 1 2 2 [1; 2; 3; 4]%Z.
Definition B22 : Matrix Z := mat 2 2 2 [5; 6; 7; 8]%Z.
Definition A23 : Matrix Z := mat 3 2 3 [1; 2; 3; 4; 5; 6]%Z.
Definition B32 : Matrix Z := mat 4 3 2 [1; 2; 3; 4; 5; 6]%Z.
Definition A12 : Matrix Z := mat 5 1 2 [1; 5]%Z.
Definition B12 : Matrix Z := mat 6 1 2 [2; 0]%Z.
Definition S11 : Matrix frozenset := mat 7 1 1 [{[1%positive]}].
Definition S11' : Matrix frozenset := mat 8 1 1 [{[2%positive]}].
Definition N12 : Matrix number := mat 9 1 2 [NaN; Finite 1].
Definition N12' : Matrix number := mat 10 1 2 [NaN; Finite 1].
Definition A20 : Matrix Z := mat 11 2 0 [].
Definition B03 : Matrix Z := mat 12 0 3 [].

(** ** The collection methods

    [ShapeLike] and [MatrixLike] are collections: the methods below
    are the ones of [shapes/abstract.py], [abstract.py] and
    [protocols.py] that the kernels above do not call. *)

Module ShapeCollection.

(** [return 2] *)
Definition __len__ (self : ShapeLike.t) : nat := 2.

(** [yield self[0]; yield self[1]] *)
Definition __iter__ (self : ShapeLike.t) : list nat :=
  [ShapeLike.dim0 self; ShapeLike.dim1 self].

(** [yield self[1]; yield self[0]] *)
Definition __reversed__ (self : ShapeLike.t) : list nat :=
  [ShapeLike.dim1 self; ShapeLike.dim0 self].

(** [self[0] == value or self[1] == value], for an integer [value]. *)
Definition __contains__ (self : ShapeLike.t) (value : Z) : bool :=
  (Z.of_nat (ShapeLike.dim0 self) =? value)%Z ||
  (Z.of_nat (ShapeLike.dim1 self) =? value)%Z.

(** [nrows, ncols = self; return nrows * ncols] ([protocols.py]) *)
Definition size (self : ShapeLike.t) : nat :=
  let '(nrows, ncols) := ShapeLike.__iter__ self in
  nrows * ncols.

End ShapeCollection.

(** [any(s)]: true at the first truthy item, false on exhaustion. *)
Fixpoint py_any (s : lazyseq bool) : Result bool :=
  match s with
  | [] => Return false
  | r :: s' => b ← r; if (b : bool) then Return true else py_any s'
  end.

(** [map(func, s)] over one iterable. *)
Definition py_map {A B : Type} (func : A → B) (s : lazyseq A) : lazyseq B :=
  map (fun r => x ← r; mret (func x)) s.


Section Collection.
Context {T : Type} `{EqDecision T, PyEq T}.

(** [yield from map(self.__getitem__, reversed(keys))] *)
Definition __reversed__ (self : Matrix T) : lazyseq T :=
  let keys := seq 0 (size self) in
  map (__getitem__ self) (rev keys).

(** [any(map(lambda x: x is value or x == value, self))]
    ([abstract.py]) *)
Definition __contains__ (self : Matrix T) (value : T) : Result bool :=
  py_any (py_map (fun x => py_is x value || py_eq x value) (__iter__ self)).


End Collection.

(** ** Further vocabulary *)

Section Laws.
Context {T : Type} `{PyEq T, PyOrd T, PyArith T}.

(** [==] on elements is symmetric. *)
Definition symmetric_eq : Prop := ∀ x y : T, py_eq x y = py_eq y x.

(** The element comparisons form a strict weak order: [>] is the
    converse of [<], [<] is asymmetric, and an element below another
    is below, or the other above, any third. *)
Definition strict_weak_order : Prop :=
  (∀ x y : T, py_gt x y = py_lt y x) ∧
  (∀ x y : T, py_lt x y = true → py_lt y x = false) ∧
  (∀ x y z : T, py_lt x y = true → py_lt x z = true ∨ py_lt z y = true).

(** [zero] and [one] are neutral and absorbing the way 0 and 1 are. *)
Definition unital (zero one : T) : Prop :=
  (∀ x, py_mul x one = x) ∧ (∀ x, py_mul one x = x) ∧
  (∀ x, py_mul x zero = zero) ∧ (∀ x, py_mul zero x = zero) ∧
  (∀ x, py_add zero x = x) ∧ (∀ x, py_add x zero = x).

End Laws.
Arguments symmetric_eq T {_}.
Arguments strict_weak_order T {_}.

(** The [n] by [n] matrix with [one] on the diagonal and [zero]
    elsewhere. *)
Definition identity {T} (id n : nat) (zero one : T) : Matrix T :=
  mat id n n
    ((fun p : nat * nat => if p.1 =? p.2 then one else zero) <$>
     (i ← seq 0 n; j ← seq 0 n; [(i, j)])).

(** A matrix whose storage is shorter than its shape says. *)
Definition short23 : Matrix Z := mat 13 2 3 [1; 2; 3; 4]%Z.

(** * Properties *)

(** ** Shapes *)

Lemma shape_eq_spec (u v : ShapeLike.t) :
  ShapeLike.__eq__ u v = true ↔ u = v.
Proof.
  destruct u as [m n], v as [p q]; unfold ShapeLike.__eq__; simpl.
  rewrite andb_true_iff, !Nat.eqb_eq. split.
  - intros [-> ->]; reflexivity.
  - intros [= -> ->]; auto.
Qed.

Lemma shape_ne_true (u v : ShapeLike.t) :
  ShapeLike.__ne__ u v = true ↔ u ≠ v.
Proof.
  unfold ShapeLike.__ne__. rewrite negb_true_iff, <- not_true_iff_false.
  by rewrite shape_eq_spec.
Qed.

Lemma shape_ne_false (u v : ShapeLike.t) :
  ShapeLike.__ne__ u v = false ↔ u = v.
Proof.
  unfold ShapeLike.__ne__. rewrite negb_false_iff. apply shape_eq_spec.
Qed.

Lemma map_fmap {A B} (f : A → B) (l : list A) : map f l = f <$> l.
Proof. reflexivity. Qed.

(** ** Iteration over well-formed matrices *)

Section Iteration.
Context {T : Type} `{EqDecision T, PyEq T, PyOrd T, PyArith T}.
Implicit Types a b : Matrix T.

Lemma size_wf a : well_formed a → size a = length (items a).
Proof. unfold well_formed, size; simpl. intros ->; reflexivity. Qed.

Lemma getitem_lookup a k x :
  items a !! k = Some x → __getitem__ a k = Return x.
Proof. unfold __getitem__. intros ->; reflexivity. Qed.

Lemma getitem_cell d a k :
  k < length (items a) → __getitem__ a k = Return (cell d a k).
Proof.
  intros Hk. apply getitem_lookup. unfold cell.
  destruct (nth_lookup_or_length (items a) k d); [done | lia].
Qed.

(** Iterating a well-formed matrix visits its storage, in order,
    without raising. *)
Lemma iter_wf a : well_formed a → __iter__ a = map Return (items a).
Proof.
  intros Hwf. unfold __iter__. rewrite (size_wf _ Hwf).
  apply list_eq; intros k. rewrite !list_lookup_fmap.
  destruct (decide (k < length (items a))) as [Hk|Hk].
  - rewrite lookup_seq_lt by done; simpl.
    destruct (lookup_lt_is_Some_2 _ _ Hk) as [x Hx].
    by rewrite Hx, (getitem_lookup _ _ _ Hx).
  - rewrite lookup_seq_ge by lia.
    by rewrite lookup_ge_None_2 by lia.
Qed.

Lemma py_map2_returns {A B C} (f : A → B → C) (xs : list A) (ys : list B) :
  py_map2 f (map Return xs) (map Return ys) = map Return (zip_with f xs ys).
Proof.
  revert ys; induction xs as [|x xs IH]; intros [|y ys]; simpl; try done.
  by rewrite IH.
Qed.

Lemma matmap_same_shape {U} (f : T → T → U) a b :
  shape a = shape b → well_formed a → well_formed b →
  matmap f a b = Return (map Return (zip_with f (items a) (items b))).
Proof.
  intros Hs Ha Hb. unfold matmap.
  rewrite (proj2 (shape_ne_false _ _) Hs).
  by rewrite (iter_wf _ Ha), (iter_wf _ Hb), py_map2_returns.
Qed.

Lemma matmap_mismatch {U} (f : T → T → U) a b :
  shape a ≠ shape b → matmap f a b = Raise (ShapeMismatch (shape a) (shape b)).
Proof.
  intros Hs. unfold matmap.
  by rewrite (proj2 (shape_ne_true _ _) Hs).
Qed.

Lemma wf_same_length a b :
  shape a = shape b → well_formed a → well_formed b →
  length (items a) = length (items b).
Proof. unfold well_formed. intros -> -> ->; reflexivity. Qed.

End Iteration.

(** ** The element-wise combinator *)

Section Matmap.
Context {T : Type} `{EqDecision T, PyEq T, PyOrd T, PyArith T}.
Implicit Types a b : Matrix T.

(** C3. [matmap(f, a, b)] raises the shape-mismatch [ValueError]
    exactly when [a.shape != b.shape]; on well-formed matrices of one
    shape it returns a sequence of [a.size] items whose [k]-th item
    is [f(a[k], b[k])]; shapes (2, 3) and (3, 2) are a mismatch
    although the sizes agree. *)
Theorem matmap_contract {U} (f : T → T → U) a b :
  well_formed a → well_formed b →
  (matmap f a b = Raise (ShapeMismatch (shape a) (shape b)) ↔ shape a ≠ shape b) ∧
  (shape a = shape b →
     ∃ s, matmap f a b = Return s ∧ length s = size a ∧
          ∀ k, k < size a →
               ∃ x y, items a !! k = Some x ∧ items b !! k = Some y ∧
                      s !! k = Some (Return (f x y))) ∧
  (shape a = Shape 2 3 → shape b = Shape 3 2 →
     size a = size b ∧
     matmap f a b = Raise (ShapeMismatch (Shape 2 3) (Shape 3 2))).
Proof.
  intros Ha Hb. split; [|split].
  - split.
    + intros Hr Hs. rewrite (matmap_same_shape f a b Hs Ha Hb) in Hr.
      discriminate.
    + apply matmap_mismatch.
  - intros Hs. eexists; split; [by apply matmap_same_shape|].
    pose proof (wf_same_length a b Hs Ha Hb) as Hlen.
    rewrite (size_wf _ Ha). split.
    + rewrite length_fmap, length_zip_with. lia.
    + intros k Hk.
      destruct (lookup_lt_is_Some_2 (items a) k Hk) as [x Hx].
      destruct (lookup_lt_is_Some_2 (items b) k ltac:(lia)) as [y Hy].
      exists x, y. split; [done|split; [done|]].
      rewrite map_fmap, list_lookup_fmap, lookup_zip_with, Hx, Hy. reflexivity.
  - intros Hsa Hsb. split.
    + unfold size. by rewrite Hsa, Hsb.
    + rewrite matmap_mismatch; rewrite Hsa, Hsb; [done|discriminate].
Qed.

End Matmap.

Lemma matmap_contract_witness :
  matmap Z.add A22 B22 = Return [Return 6; Return 8; Return 10; Return 12]%Z ∧
  matmap Z.add A23 B32 = Raise (ShapeMismatch (Shape 2 3) (Shape 3 2)).
Proof.
  split.
  - destruct (matmap_contract Z.add A22 B22) as (_ & _ & _);
      [reflexivity | reflexivity | reflexivity].
  - destruct (matmap_contract Z.add A23 B32) as (_ & _ & Hm);
      [reflexivity | reflexivity |].
    apply Hm; reflexivity.
Defined.


(** ** The lexicographic comparator *)

Section Matcmp.
Context {T : Type} `{EqDecision T, PyEq T, PyOrd T, PyArith T}.
Implicit Types a b : Matrix T.
Implicit Types xs ys : list T.

Lemma matcmp_same_shape a b :
  shape a = shape b → well_formed a → well_formed b →
  matcmp a b = matcmp_loop (map Return (zip (items a) (items b))).
Proof.
  intros Hs Ha Hb. unfold matcmp, py_zip.
  rewrite (proj2 (shape_ne_false _ _) Hs).
  by rewrite (iter_wf _ Ha), (iter_wf _ Hb), py_map2_returns.
Qed.

Lemma matcmp_mismatch a b :
  shape a ≠ shape b → matcmp a b = Raise (ShapeMismatch (shape a) (shape b)).
Proof.
  intros Hs. unfold matcmp. by rewrite (proj2 (shape_ne_true _ _) Hs).
Qed.

Lemma undecided_before_0 xs ys : undecided_before xs ys 0.
Proof. intros j x y Hj. lia. Qed.

Lemma undecided_before_cons x y xs ys k :
  py_lt x y = false → py_gt x y = false →
  undecided_before xs ys k → undecided_before (x :: xs) (y :: ys) (S k).
Proof.
  intros Hlt Hgt Hk [|j] x' y' Hj; simpl.
  - by intros [= <-] [= <-].
  - apply Hk. lia.
Qed.

(** The loop returns at the first decided pair, testing [<] before
    [>], and returns 0 when it runs off the end. *)
Lemma matcmp_loop_lex xs ys :
  (matcmp_loop (map Return (zip xs ys)) = Return (-1)%Z ∧ lex_less xs ys) ∨
  (matcmp_loop (map Return (zip xs ys)) = Return 1%Z ∧ lex_greater xs ys) ∨
  (matcmp_loop (map Return (zip xs ys)) = Return 0%Z ∧ lex_equal xs ys).
Proof.
  revert ys; induction xs as [|x xs IH]; intros ys.
  { right; right. split; [done|]. intros k j x y _ Hx. by destruct j. }
  destruct ys as [|y ys].
  { right; right. split; [done|]. intros k j x' y' _ _ Hy. by destruct j. }
  cbn [zip zip_with map matcmp_loop mbind Result_bind].
  destruct (py_lt x y) eqn:Hlt.
  { left. split; [done|]. exists 0, x, y. auto using undecided_before_0. }
  destruct (py_gt x y) eqn:Hgt.
  { right; left. split; [done|]. exists 0, x, y. auto using undecided_before_0. }
  destruct (IH ys) as [[-> Hl]|[[-> Hg]|[-> He]]].
  - left. split; [done|]. destruct Hl as (k & x' & y' & Hk & Hx & Hy & Hr).
    exists (S k), x', y'. auto using undecided_before_cons.
  - right; left. split; [done|].
    destruct Hg as (k & x' & y' & Hk & Hx & Hy & Hr1 & Hr2).
    exists (S k), x', y'. auto using undecided_before_cons.
  - right; right. split; [done|]. intros [|k].
    + apply undecided_before_0.
    + auto using undecided_before_cons.
Qed.

Lemma lex_less_not_greater xs ys : lex_less xs ys → ¬ lex_greater xs ys.
Proof.
  intros (k & x & y & Hk & Hx & Hy & Hlt) (k' & x' & y' & Hk' & Hx' & Hy' & Hlt' & Hgt').
  destruct (Nat.lt_trichotomy k k') as [Hc|[->|Hc]].
  - destruct (Hk' k x y Hc Hx Hy). congruence.
  - congruence.
  - destruct (Hk k' x' y' Hc Hx' Hy'). congruence.
Qed.

Lemma lex_equal_not_less xs ys : lex_equal xs ys → ¬ lex_less xs ys.
Proof.
  intros He (k & x & y & Hk & Hx & Hy & Hlt).
  destruct (He (S k) k x y) as [? ?]; [lia|done|done|congruence].
Qed.

Lemma lex_equal_not_greater xs ys : lex_equal xs ys → ¬ lex_greater xs ys.
Proof.
  intros He (k & x & y & Hk & Hx & Hy & Hlt & Hgt).
  destruct (He (S k) k x y) as [? ?]; [lia|done|done|congruence].
Qed.

(** The three outcomes of [matcmp] on matrices of one shape. *)
Lemma matcmp_cases a b :
  shape a = shape b → well_formed a → well_formed b →
  (matcmp a b = Return (-1)%Z ∧ lex_less (items a) (items b)) ∨
  (matcmp a b = Return 1%Z ∧ lex_greater (items a) (items b)) ∨
  (matcmp a b = Return 0%Z ∧ lex_equal (items a) (items b)).
Proof.
  intros Hs Ha Hb. rewrite (matcmp_same_shape a b Hs Ha Hb).
  apply matcmp_loop_lex.
Qed.

(** C4. [matcmp] raises the shape-mismatch [ValueError] when the shapes
    differ; on one shape it returns -1 when the first pair (in
    row-major order) decided by [<] or [>] is related by [<], 1 when
    that pair is related by [>], and 0 when no pair is decided; the
    operators [<], [<=], [>], [>=] are the sign tests of its result. *)
Theorem matcmp_lexicographic a b :
  well_formed a → well_formed b →
  (shape a ≠ shape b →
     matcmp a b = Raise (ShapeMismatch (shape a) (shape b))) ∧
  (shape a = shape b →
     (matcmp a b = Return (-1)%Z ∨ matcmp a b = Return 1%Z ∨
      matcmp a b = Return 0%Z) ∧
     (matcmp a b = Return (-1)%Z ↔ lex_less (items a) (items b)) ∧
     (matcmp a b = Return 1%Z ↔ lex_greater (items a) (items b)) ∧
     (matcmp a b = Return 0%Z ↔ lex_equal (items a) (items b))) ∧
  __lt__ a b = (c ← matcmp a b; mret (c <? 0)%Z) ∧
  __le__ a b = (c ← matcmp a b; mret (c <=? 0)%Z) ∧
  __gt__ a b = (c ← matcmp a b; mret (c >? 0)%Z) ∧
  __ge__ a b = (c ← matcmp a b; mret (c >=? 0)%Z).
Proof.
  intros Ha Hb. split; [apply matcmp_mismatch|].
  split; [|done]. intros Hs.
  pose proof (lex_less_not_greater (items a) (items b)) as Hlg.
  pose proof (lex_equal_not_less (items a) (items b)) as Hel.
  pose proof (lex_equal_not_greater (items a) (items b)) as Heg.
  destruct (matcmp_cases a b Hs Ha Hb) as [[Hc Hx]|[[Hc Hx]|[Hc Hx]]];
    rewrite Hc; (split; [auto|]); repeat apply conj;
    first [ by intros [=] | intros _; exact Hx
          | intros _; reflexivity | intros; exfalso; tauto ].
Qed.

End Matcmp.

Lemma matcmp_lexicographic_witness :
  matcmp A12 B12 = Return (-1)%Z ∧
  matcmp A23 B32 = Raise (ShapeMismatch (Shape 2 3) (Shape 3 2)).
Proof.
  split.
  - destruct (matcmp_lexicographic A12 B12) as (_ & Hs & _);
      [reflexivity | reflexivity |].
    destruct (Hs eq_refl) as (_ & Hl & _). apply Hl.
    exists 0, 1%Z, 2%Z. split; [apply undecided_before_0|].
    repeat split.
  - destruct (matcmp_lexicographic A23 B32) as (Hm & _);
      [reflexivity | reflexivity |].
    apply Hm. discriminate.
Defined.


(** ** Equality and the ordering operators *)

Section Comparisons.
Context {T : Type} `{EqDecision T, PyEq T, PyOrd T, PyArith T}.
Implicit Types a b : Matrix T.
Implicit Types xs ys : list T.

Lemma py_all_returns (f : T → T → bool) xs ys :
  py_all (map Return (zip_with f xs ys)) =
  Return (forallb (fun p => f p.1 p.2) (zip xs ys)).
Proof.
  revert ys; induction xs as [|x xs IH]; intros [|y ys]; try done.
  cbn [zip zip_with map py_all forallb mbind Result_bind fst snd].
  destruct (f x y); [apply IH | done].
Qed.

Lemma eq_identical a : __eq__ a (OMatrix a) = Return (Value true).
Proof.
  unfold __eq__, is_operand, py_is. by rewrite bool_decide_eq_true_2.
Qed.

Lemma eq_distinct a b :
  a ≠ b → shape a = shape b → well_formed a → well_formed b →
  __eq__ a (OMatrix b) = Return (Value (all_pairs same_or_equal a b)).
Proof.
  intros Hne Hs Ha Hb. unfold __eq__, is_operand, py_is.
  rewrite bool_decide_eq_false_2 by done.
  rewrite (matmap_same_shape _ a b Hs Ha Hb).
  cbn [mbind Result_bind]. by rewrite py_all_returns.
Qed.

Lemma eq_same_shape a b :
  shape a = shape b → well_formed a → well_formed b →
  __eq__ a (OMatrix b) =
  Return (Value (py_is a b || all_pairs same_or_equal a b)).
Proof.
  intros Hs Ha Hb. unfold py_is at 1. case_bool_decide as Hab.
  - subst b. apply eq_identical.
  - by apply eq_distinct.
Qed.

Lemma all_pairs_same_items a b :
  items a = items b → all_pairs same_or_equal a b = true.
Proof.
  unfold all_pairs. intros <-. induction (items a) as [|x xs IH]; [done|].
  cbn [zip zip_with forallb fst snd]. rewrite IH, andb_true_r.
  unfold same_or_equal, py_is. by rewrite bool_decide_eq_true_2.
Qed.

(** C10. [a == a] is true through the identity short-circuit; for
    distinct objects of one shape the answer is whether every pair
    satisfies [x is y or x == y]; so matrices holding the identical
    element objects are equal whatever the elements' own [==] says. *)
Theorem eq_by_identity a b :
  __eq__ a (OMatrix a) = Return (Value true) ∧
  (a ≠ b → shape a = shape b → well_formed a → well_formed b →
   __eq__ a (OMatrix b) = Return (Value (all_pairs same_or_equal a b))) ∧
  (shape a = shape b → items a = items b → well_formed a →
   __eq__ a (OMatrix b) = Return (Value true)).
Proof.
  split; [apply eq_identical|]. split; [apply eq_distinct|].
  intros Hs Hi Ha.
  assert (well_formed b) as Hb by (unfold well_formed in *; congruence).
  rewrite (eq_same_shape a b Hs Ha Hb), (all_pairs_same_items a b Hi).
  by rewrite orb_true_r.
Qed.

Lemma sign_cases a b :
  shape a = shape b → well_formed a → well_formed b →
  ∃ c, matcmp a b = Return c ∧
       ((c = (-1)%Z ∧ lex_less (items a) (items b)) ∨
        (c = 1%Z ∧ lex_greater (items a) (items b)) ∨
        (c = 0%Z ∧ lex_equal (items a) (items b))).
Proof.
  intros Hs Ha Hb.
  destruct (matcmp_cases a b Hs Ha Hb) as [[Hc Hx]|[[Hc Hx]|[Hc Hx]]];
    eexists; (split; [exact Hc|]); tauto.
Qed.

(** C6, as the code has it. On well-formed matrices of one shape,
    [==] answers whether the operands are the same object or all pairs
    satisfy [x is y or x == y], and [!=] is its negation; the ordering
    operators are lexicographic: [<] holds when the first decided pair
    is related by [<], [>] when it is related by [>], [<=] unless [>]
    holds and [>=] unless [<] holds. *)
Theorem comparison_operators a b :
  shape a = shape b → well_formed a → well_formed b →
  __eq__ a (OMatrix b) =
    Return (Value (py_is a b || all_pairs same_or_equal a b)) ∧
  __ne__ a (OMatrix b) =
    Return (Value (negb (py_is a b || all_pairs same_or_equal a b))) ∧
  (∃ r, __lt__ a b = Return r ∧ (r = true ↔ lex_less (items a) (items b))) ∧
  (∃ r, __le__ a b = Return r ∧ (r = true ↔ ¬ lex_greater (items a) (items b))) ∧
  (∃ r, __gt__ a b = Return r ∧ (r = true ↔ lex_greater (items a) (items b))) ∧
  (∃ r, __ge__ a b = Return r ∧ (r = true ↔ ¬ lex_less (items a) (items b))).
Proof.
  intros Hs Ha Hb.
  split; [by apply eq_same_shape|].
  split; [unfold __ne__; by rewrite (eq_same_shape a b Hs Ha Hb)|].
  pose proof (lex_less_not_greater (items a) (items b)) as Hlg.
  pose proof (lex_equal_not_less (items a) (items b)) as Hel.
  pose proof (lex_equal_not_greater (items a) (items b)) as Heg.
  unfold __lt__, __le__, __gt__, __ge__.
  destruct (sign_cases a b Hs Ha Hb) as (c & -> & [[-> Hx]|[[-> Hx]|[-> Hx]]]);
    cbn [mbind Result_bind mret Result_ret];
    repeat apply conj; eexists; (split; [reflexivity|]); cbn;
    (split; [first [ by intros [=] | tauto ] | first [ done | tauto ]]).
Qed.

End Comparisons.

Lemma eq_by_identity_witness :
  py_eq NaN NaN = false ∧ N12 ≠ N12' ∧
  __eq__ N12 (OMatrix N12') = Return (Value true).
Proof.
  split; [reflexivity|]. split; [discriminate|].
  destruct (eq_by_identity N12 N12') as (_ & _ & Hi).
  apply Hi; reflexivity.
Defined.

(** C6, as stated, fails for [<]: [[1, 5]] < [[2, 0]] is true although
    5 < 0 is not. *)
Lemma lt_is_not_all_pairs :
  shape A12 = shape B12 ∧ well_formed A12 ∧ well_formed B12 ∧
  ¬ all_pairs_operator __lt__ py_lt A12 B12.
Proof.
  repeat split. unfold all_pairs_operator. vm_compute. discriminate.
Qed.

Lemma comparison_operators_witness :
  __lt__ A12 B12 = Return true ∧ __eq__ A12 (OMatrix B12) = Return (Value false).
Proof.
  destruct (comparison_operators A12 B12) as (He & _ & (r & Hr & Hl) & _);
    [reflexivity | reflexivity | reflexivity |].
  split; [|exact He].
  rewrite Hr. f_equal. apply Hl.
  exists 0, 1%Z, 2%Z. split; [apply undecided_before_0|]. repeat split.
Defined.


(** ** Totality over totally ordered elements *)

Section Totality.
Context {T : Type} `{EqDecision T, PyEq T, PyOrd T, PyArith T}.
Implicit Types a b : Matrix T.
Implicit Types xs ys : list T.

Hypothesis Htotal : total_order T.

Lemma gt_converse (x y : T) : py_gt x y = py_lt y x.
Proof. apply Htotal. Qed.

Lemma element_trichotomy (x y : T) :
  exactly_one (py_lt x y) (py_eq x y) (py_lt y x) = true.
Proof. rewrite <- (gt_converse x y). apply Htotal. Qed.

Lemma lt_irreflexive (x : T) : py_lt x x = false.
Proof.
  pose proof (element_trichotomy x x) as Hx.
  destruct (py_lt x x), (py_eq x x); done.
Qed.

(** Swapping the operands negates the loop's result, and the result is
    0 exactly when all pairs satisfy [x is y or x == y]. *)
Lemma matcmp_loop_swap xs ys :
  ∃ c, matcmp_loop (map Return (zip xs ys)) = Return c ∧
       matcmp_loop (map Return (zip ys xs)) = Return (- c)%Z ∧
       (c = (-1)%Z ∨ c = 0%Z ∨ c = 1%Z) ∧
       forallb (fun p => same_or_equal p.1 p.2) (zip xs ys) = (c =? 0)%Z.
Proof.
  revert ys; induction xs as [|x xs IH]; intros [|y ys];
    try (exists 0%Z; repeat split; auto; done).
  cbn [zip zip_with map matcmp_loop forallb mbind Result_bind fst snd].
  rewrite !gt_converse.
  pose proof (element_trichotomy x y) as Hxy.
  assert (py_is x y = true → py_lt x y = false) as Hid.
  { unfold py_is. intros ->%bool_decide_eq_true. apply lt_irreflexive. }
  change (same_or_equal x y) with (py_is x y || py_eq x y).
  destruct (py_lt x y) eqn:Hlt, (py_eq x y) eqn:Heq, (py_lt y x) eqn:Hgt;
    try discriminate Hxy.
  - exists (-1)%Z. repeat split; auto.
    destruct (py_is x y); [by specialize (Hid eq_refl)|done].
  - destruct (IH ys) as (c & -> & -> & Hc & ->).
    exists c. repeat split; auto. by rewrite orb_true_r.
  - exists 1%Z. repeat split; auto.
    destruct (py_is x y) eqn:Hi; [|done].
    apply bool_decide_eq_true in Hi; subst y.
    rewrite lt_irreflexive in Hgt; discriminate.
Qed.

(** C5, over totally ordered elements. For well-formed matrices of
    one shape whose element comparisons form a total order, exactly
    one of [a < b], [a == b], [a > b] holds and
    [matcmp(a, b) == -matcmp(b, a)]. *)
Theorem lexicographic_totality a b :
  shape a = shape b → well_formed a → well_formed b →
  trichotomy a b ∧
  ∃ c, matcmp a b = Return c ∧ matcmp b a = Return (- c)%Z.
Proof.
  intros Hs Ha Hb.
  destruct (matcmp_loop_swap (items a) (items b)) as (c & Hab & Hba & Hc & Hall).
  rewrite <- (matcmp_same_shape a b Hs Ha Hb) in Hab.
  rewrite <- (matcmp_same_shape b a (eq_sym Hs) Hb Ha) in Hba.
  split; [|by exists c].
  exists (c <? 0)%Z, (py_is a b || (c =? 0)%Z), (c >? 0)%Z.
  unfold __lt__, __gt__. rewrite Hab. repeat split.
  - rewrite (eq_same_shape a b Hs Ha Hb). unfold all_pairs. by rewrite Hall.
  - destruct (py_is a b) eqn:Hi.
    + apply bool_decide_eq_true in Hi; subst b.
      assert (c = 0%Z) as -> by (rewrite Hab in Hba; injection Hba; lia).
      reflexivity.
    + destruct Hc as [->|[->| ->]]; reflexivity.
Qed.

End Totality.

Lemma int_total_order : total_order Z.
Proof.
  intros x y. unfold py_gt, py_lt, py_eq, int_ord, int_eq.
  rewrite Z.gtb_ltb. split; [done|].
  destruct (Z.ltb_spec x y), (Z.eqb_spec x y), (Z.ltb_spec y x);
    simpl; try reflexivity; lia.
Qed.

Lemma lexicographic_totality_witness :
  trichotomy A12 B12 ∧
  ∃ c, matcmp A12 B12 = Return c ∧ matcmp B12 A12 = Return (- c)%Z.
Proof.
  apply (lexicographic_totality int_total_order A12 B12); reflexivity.
Defined.

(** C5, as stated, fails over partially ordered elements: for the
    sets [{1}] and [{2}] none of [a < b], [a == b], [a > b] holds. *)
Lemma trichotomy_fails_on_sets :
  shape S11 = shape S11' ∧ well_formed S11 ∧ well_formed S11' ∧
  ¬ trichotomy S11 S11'.
Proof.
  repeat split. intros (l & e & g & Hl & He & Hg & Hex).
  vm_compute in Hl, He, Hg.
  injection Hl as <-. injection He as <-. injection Hg as <-.
  discriminate Hex.
Qed.


(** ** Matrix multiplication *)

Section Matmul.
Context {T : Type} `{EqDecision T, PyEq T, PyOrd T, PyArith T}.
Implicit Types a b : Matrix T.

(** The iteration space of the two [for] loops, row by row. *)
Lemma bind_singleton_fmap {A B} (f : A → B) (l : list A) :
  (x ← l; [f x]) = f <$> l.
Proof. induction l as [|x l IH]; [done|]. rewrite bind_cons, IH. done. Qed.

Lemma positions_length q s m :
  length (i ← seq s m; j ← seq 0 q; [(i, j)]) = m * q.
Proof.
  revert s; induction m as [|m IH]; intros s; [done|].
  cbn [seq]. rewrite bind_cons, length_app, IH, bind_singleton_fmap.
  rewrite length_fmap, length_seq. lia.
Qed.

Lemma positions_lookup q s m i j :
  i < m → j < q →
  (i' ← seq s m; j' ← seq 0 q; [(i', j')]) !! (i * q + j) = Some (s + i, j).
Proof.
  revert s i; induction m as [|m IH]; intros s i Hi Hj; [lia|].
  cbn [seq]. rewrite bind_cons, bind_singleton_fmap.
  destruct i as [|i].
  - rewrite lookup_app_l by (rewrite length_fmap, length_seq; lia).
    rewrite list_lookup_fmap, lookup_seq_lt by lia.
    simpl. do 2 f_equal. lia.
  - rewrite lookup_app_r by (rewrite length_fmap, length_seq; lia).
    rewrite length_fmap, length_seq.
    replace (S i * q + j - q) with (i * q + j) by lia.
    rewrite IH by lia. do 2 f_equal. lia.
Qed.

Lemma positions_bounded q m (p : nat * nat) :
  p ∈ (i ← seq 0 m; j ← seq 0 q; [(i, j)]) → p.1 < m ∧ p.2 < q.
Proof.
  intros (i & (j & Hp & Hj)%list_elem_of_bind & Hi)%list_elem_of_bind.
  apply list_elem_of_singleton in Hp as ->.
  apply elem_of_seq in Hi, Hj. simpl. lia.
Qed.

Lemma seq_head k : 0 < k → seq 0 k = 0 :: seq 1 (k - 1).
Proof. destruct k as [|k]; [lia|]. intros _. simpl. by rewrite Nat.sub_0_r. Qed.

(** [reduce] over terms that all evaluate is a left fold from the
    first term. *)
Lemma reduce_from_fold {A} (f : T → T → T) (term : A → Result T)
    (g : A → T) (ks : list A) (acc : T) :
  (∀ k, k ∈ ks → term k = Return (g k)) →
  reduce_from f acc (map term ks) =
  Return (fold_left (fun acc k => f acc (g k)) ks acc).
Proof.
  revert acc; induction ks as [|k ks IH]; intros acc Hk; [done|].
  cbn [map reduce_from fold_left]. rewrite (Hk k) by left.
  cbn [mbind Result_bind]. apply IH. intros k' Hk'. apply Hk. by right.
Qed.

Section Shapes.
Variables (a b : Matrix T) (m n q : nat).
Hypothesis Hsa : shape a = Shape m n.
Hypothesis Hsb : shape b = Shape n q.
Hypothesis Hwa : well_formed a.
Hypothesis Hwb : well_formed b.

Lemma length_items_a : length (items a) = m * n.
Proof. unfold well_formed in Hwa. by rewrite Hwa, Hsa. Qed.

Lemma length_items_b : length (items b) = n * q.
Proof. unfold well_formed in Hwb. by rewrite Hwb, Hsb. Qed.

Lemma matmul_term_value d i j k :
  i < m → j < q → k < n →
  matmul_term a b n q i j k =
  Return (py_mul (cell d a (i * n + k)) (cell d b (k * q + j))).
Proof.
  intros Hi Hj Hk. unfold matmul_term.
  rewrite (getitem_cell d a) by (rewrite length_items_a; nia).
  rewrite (getitem_cell d b) by (rewrite length_items_b; nia).
  reflexivity.
Qed.

Lemma matmul_entry_value d i j :
  0 < n → i < m → j < q →
  matmul_entry a b n q i j = Return (dot d a b n q i j).
Proof.
  intros Hn Hi Hj. unfold matmul_entry, dot.
  rewrite (seq_head n Hn). cbn [map reduce].
  rewrite (matmul_term_value d) by lia. cbn [mbind Result_bind].
  rewrite Nat.add_0_r, Nat.mul_0_l, Nat.add_0_l.
  apply reduce_from_fold. intros k Hk%elem_of_seq.
  apply matmul_term_value; lia.
Qed.

(** Draining a suspended generator yields the entries of the rest of
    the iteration space and then stops. *)
Lemma consume_suspended d rest fuel :
  0 < n → (∀ p, p ∈ rest → p.1 < m ∧ p.2 < q) → length rest < fuel →
  consume fuel (GEN_SUSPENDED a b n q rest) =
  Some (Return (map (fun p => dot d a b n q p.1 p.2) rest)).
Proof.
  intros Hn. revert fuel; induction rest as [|[i j] rest IH];
    intros fuel Hb Hf; (destruct fuel as [|fuel]; [simpl in Hf; lia|]).
  - reflexivity.
  - cbn [consume next resume].
    destruct (Hb (i, j)) as [Hi Hj]; [left|]. simpl in Hi, Hj.
    rewrite (matmul_entry_value d) by done.
    rewrite IH; [done| |simpl in Hf; lia].
    intros p Hp. apply Hb. by right.
Qed.

Lemma next_created_valid :
  0 < n →
  next (matmul a b) =
  next (GEN_SUSPENDED a b n q (i ← seq 0 m; j ← seq 0 q; [(i, j)])).
Proof.
  intros Hn. unfold matmul. cbn [next]. rewrite Hsa, Hsb.
  cbn [ShapeLike.__iter__ ShapeLike.dim0 ShapeLike.dim1].
  rewrite Nat.eqb_refl. cbn [negb].
  destruct (Nat.eqb_spec n 0); [lia|done].
Qed.

Lemma consume_matmul d fuel :
  0 < n → m * q < fuel →
  consume fuel (matmul a b) =
  Some (Return (map (fun p => dot d a b n q p.1 p.2)
                    (i ← seq 0 m; j ← seq 0 q; [(i, j)]))).
Proof.
  intros Hn Hf.
  rewrite <- (consume_suspended d _ fuel Hn (positions_bounded q m))
    by (rewrite positions_length; lia).
  destruct fuel as [|fuel]; [lia|].
  cbn [consume]. by rewrite next_created_valid.
Qed.

End Shapes.

Lemma next_created_mismatch a b :
  ShapeLike.dim1 (shape a) ≠ ShapeLike.dim0 (shape b) →
  next (matmul a b) = (Raised (ShapeMismatch (shape a) (shape b)), GEN_CLOSED).
Proof.
  intros Hne. unfold matmul. cbn [next].
  destruct (shape a) as [m n], (shape b) as [p q]; simpl in *.
  by destruct (Nat.eqb_spec n p).
Qed.

Lemma next_created_degenerate a b :
  ShapeLike.dim1 (shape a) = ShapeLike.dim0 (shape b) →
  ShapeLike.dim1 (shape a) = 0 →
  next (matmul a b) = (Raised DegenerateDimension, GEN_CLOSED).
Proof.
  intros Heq Hz. unfold matmul. cbn [next].
  destruct (shape a) as [m n], (shape b) as [p q]; simpl in *. subst.
  reflexivity.
Qed.

End Matmul.

Section MatmulContract.
Context {T : Type} `{EqDecision T, PyEq T, PyOrd T, PyArith T}.
Implicit Types a b : Matrix T.

(** With a positive inner dimension the generator runs to exhaustion
    and yields one value per position of the result shape. *)
Lemma consume_matmul_length a b m n q fuel :
  shape a = Shape m n → shape b = Shape n q →
  well_formed a → well_formed b → 0 < n → m * q < fuel →
  ∃ L, consume fuel (matmul a b) = Some (Return L) ∧ length L = m * q.
Proof.
  intros Hsa Hsb Hwa Hwb Hn Hf.
  destruct (items a) as [|d xs] eqn:Hitems.
  - pose proof (length_items_a a m n Hsa Hwa) as Hlen.
    rewrite Hitems in Hlen. assert (m = 0) as -> by (simpl in Hlen; nia).
    destruct fuel as [|fuel]; [lia|]. exists []. split; [|done].
    cbn [consume]. by rewrite (next_created_valid a b 0 n q Hsa Hsb Hn).
  - eexists. split; [by apply (consume_matmul a b m n q Hsa Hsb Hwa Hwb d)|].
    by rewrite length_map, positions_length.
Qed.

(** C2. Over well-formed operands of shapes [(m, n)] and [(p, q)],
    consuming [matmul(a, b)] raises the shape-mismatch [ValueError]
    exactly when [n != p]; when [n == p] it raises the bare
    [ValueError] exactly when [n == 0]; otherwise nothing is raised and
    the [m * q] entries of the product are produced. *)
Theorem matmul_errors a b m n p q fuel :
  shape a = Shape m n → shape b = Shape p q →
  well_formed a → well_formed b → m * q < fuel →
  (consume fuel (matmul a b) = Some (Raise (ShapeMismatch (shape a) (shape b)))
     ↔ n ≠ p) ∧
  (n = p →
     (consume fuel (matmul a b) = Some (Raise DegenerateDimension) ↔ n = 0)) ∧
  (n = p → n ≠ 0 →
     ∃ L, consume fuel (matmul a b) = Some (Return L) ∧ length L = m * q).
Proof.
  intros Hsa Hsb Hwa Hwb Hf.
  destruct fuel as [|fuel]; [lia|].
  destruct (decide (n = p)) as [<-|Hnp].
  - destruct (decide (n = 0)) as [->|Hn].
    + assert (consume (S fuel) (matmul a b) = Some (Raise DegenerateDimension)) as ->.
      { cbn [consume]. rewrite next_created_degenerate; [done| |]; by rewrite Hsa, ?Hsb. }
      split; [split; [intros [=]|done]|]. split; [done|]. intros _ Hn. done.
    + destruct (consume_matmul_length a b m n q (S fuel)) as (L & -> & HL);
        try done; [lia|].
      split; [split; [intros [=]|done]|]. split; [|by eauto].
      intros _. split; [intros [=]|done].
  - assert (consume (S fuel) (matmul a b) =
            Some (Raise (ShapeMismatch (shape a) (shape b)))) as ->.
    { cbn [consume]. rewrite next_created_mismatch; [done|]. by rewrite Hsa, Hsb. }
    split; [done|]. split; intros; done.
Qed.

Lemma getitem_raises a k e : __getitem__ a k = Raise e → e = IndexError.
Proof. unfold __getitem__. destruct (items a !! k); by intros [=]. Qed.

Lemma matmul_term_raises a b n q i j k e :
  matmul_term a b n q i j k = Raise e → e = IndexError.
Proof.
  unfold matmul_term.
  destruct (__getitem__ a (i * n + k)) as [x|e1] eqn:Hx; cbn [mbind Result_bind].
  - destruct (__getitem__ b (k * q + j)) as [y|e2] eqn:Hy;
      cbn [mbind Result_bind]; intros [= <-].
    by apply getitem_raises in Hy.
  - intros [= <-]. by apply getitem_raises in Hx.
Qed.

Lemma reduce_from_raises (f : T → T → T) acc (s : lazyseq T) e :
  reduce_from f acc s = Raise e → Raise e ∈ s.
Proof.
  revert acc; induction s as [|[x|e'] s IH]; intros acc; cbn [reduce_from].
  - intros [=].
  - cbn [mbind Result_bind]. intros Hr%IH. by right.
  - cbn [mbind Result_bind]. intros [= ->]. by left.
Qed.

(** An entry can only fail on an index outside the storage, or on an
    empty range of [k]. *)
Lemma matmul_entry_raises a b n q i j e :
  matmul_entry a b n q i j = Raise e → e = IndexError ∨ e = TypeError.
Proof.
  unfold matmul_entry, reduce.
  destruct (seq 0 n) as [|k ks]; cbn [map]; [intros [= <-]; by right|].
  destruct (matmul_term a b n q i j k) as [x|e'] eqn:Hk; cbn [mbind Result_bind].
  - intros Hr%reduce_from_raises. rewrite map_fmap in Hr.
    apply list_elem_of_fmap in Hr as (k' & Hk' & _).
    left. symmetry in Hk'. by apply matmul_term_raises in Hk'.
  - intros [= <-]. left. by apply matmul_term_raises in Hk.
Qed.

Lemma resume_no_value_error a b n q rest args g :
  resume a b n q rest ≠ (Raised (ValueError args), g).
Proof.
  destruct rest as [|[i j] rest]; cbn [resume]; [discriminate|].
  destruct (matmul_entry a b n q i j) as [v|e] eqn:He; [discriminate|].
  intros [= -> _]. by destruct (matmul_entry_raises _ _ _ _ _ _ _ He).
Qed.

(** C9. The call [matmul(a, b)] only creates the generator; the two
    validations run at the first [next], which raises their
    [ValueError] exactly when the inner dimensions differ or are zero
    and closes the generator; a started generator never raises a
    [ValueError]. [matmap] validates in the call itself. *)
Theorem matmul_validates_lazily a b :
  matmul a b = GEN_CREATED a b ∧
  (∀ args g,
     next (matmul a b) = (Raised (ValueError args), g) ↔
     g = GEN_CLOSED ∧
     ((ShapeLike.dim1 (shape a) ≠ ShapeLike.dim0 (shape b) ∧
       args = Some (shape a, shape b)) ∨
      (ShapeLike.dim1 (shape a) = ShapeLike.dim0 (shape b) ∧
       ShapeLike.dim1 (shape a) = 0 ∧ args = None))) ∧
  (∀ n q rest args g,
     next (GEN_SUSPENDED a b n q rest) ≠ (Raised (ValueError args), g)) ∧
  (∀ (U : Type) (f : T → T → U), shape a ≠ shape b →
     matmap f a b = Raise (ShapeMismatch (shape a) (shape b))).
Proof.
  split; [reflexivity|]. split; [|split].
  - intros args g.
    destruct (decide (ShapeLike.dim1 (shape a) = ShapeLike.dim0 (shape b)))
      as [Heq|Hne].
    + destruct (decide (ShapeLike.dim1 (shape a) = 0)) as [Hz|Hnz].
      * rewrite (next_created_degenerate a b Heq Hz). unfold DegenerateDimension.
        split; [intros [= <- <-]; auto|].
        intros [-> [[? _]|(_ & _ & ->)]]; done.
      * split; [|intros [_ [[? _]|(_ & ? & _)]]; done].
        unfold matmul. cbn [next].
        destruct (shape a) as [m n], (shape b) as [p q]; simpl in *. subst p.
        rewrite Nat.eqb_refl. cbn [negb].
        destruct (Nat.eqb_spec n 0); [done|].
        intros Hr. by apply resume_no_value_error in Hr.
    + rewrite (next_created_mismatch a b Hne). unfold ShapeMismatch.
      split; [intros [= <- <-]; auto|].
      intros [-> [[_ ->]|(? & _)]]; done.
  - intros n q rest args g. apply resume_no_value_error.
  - intros U f. apply matmap_mismatch.
Qed.

End MatmulContract.

(** C1. For well-formed [a] of shape [(m, n)] and [b] of shape
    [(n, q)] with [n > 0], consuming [matmul(a, b)] yields [m * q]
    values, the one at row-major position [(i, j)] being the left fold
    of [a[i*n+k] * b[k*q+j]] over [k], started from the term for
    [k = 0]; and [[1,2],[3,4]] times [[5,6],[7,8]] is
    [[19,22],[43,50]]. *)
Theorem matmul_product :
  (∀ (T : Type) (A : PyArith T) (d : T)
     (a b : Matrix T) (m n q fuel : nat),
     shape a = Shape m n → shape b = Shape n q →
     well_formed a → well_formed b → 0 < n → m * q < fuel →
     ∃ L, consume fuel (matmul a b) = Some (Return L) ∧
          length L = m * q ∧
          ∀ i j, i < m → j < q →
                 L !! (i * q + j) = Some (dot d a b n q i j)) ∧
  consume 5 (matmul A22 B22) = Some (Return [19; 22; 43; 50]%Z).
Proof.
  split; [|reflexivity].
  intros T A d a b m n q fuel Hsa Hsb Hwa Hwb Hn Hf.
  eexists. split; [by apply (consume_matmul a b m n q Hsa Hsb Hwa Hwb d)|].
  split; [by rewrite length_map, positions_length|].
  intros i j Hi Hj.
  by rewrite map_fmap, list_lookup_fmap, positions_lookup.
Qed.

Lemma matmul_product_witness :
  ∃ L, consume 7 (matmul A23 B32) = Some (Return L) ∧ length L = 4 ∧
       L !! 3 = Some 64%Z.
Proof.
  destruct matmul_product as [Hgen _].
  destruct (Hgen Z _ 0%Z A23 B32 2 3 2 7) as (L & HL & Hlen & Hent);
    [reflexivity | reflexivity | reflexivity | reflexivity | lia | lia |].
  exists L. split; [exact HL|]. split; [exact Hlen|].
  apply (Hent 1 1); lia.
Defined.

Lemma matmul_errors_witness :
  consume 7 (matmul A23 A23) = Some (Raise (ShapeMismatch (Shape 2 3) (Shape 2 3))) ∧
  consume 7 (matmul A20 B03) = Some (Raise DegenerateDimension) ∧
  ∃ L, consume 7 (matmul A23 B32) = Some (Return L) ∧ length L = 4.
Proof.
  split; [|split].
  - destruct (matmul_errors A23 A23 2 3 2 3 7) as (Hm & _);
      [reflexivity | reflexivity | reflexivity | reflexivity | lia |].
    apply Hm. lia.
  - destruct (matmul_errors A20 B03 2 0 0 3 7) as (_ & Hd & _);
      [reflexivity | reflexivity | reflexivity | reflexivity | lia |].
    apply Hd; reflexivity.
  - destruct (matmul_errors A23 B32 2 3 3 2 7) as (_ & _ & Hok);
      [reflexivity | reflexivity | reflexivity | reflexivity | lia |].
    apply Hok; lia.
Defined.

Lemma matmul_validates_lazily_witness :
  next (matmul A23 A23) =
    (Raised (ShapeMismatch (Shape 2 3) (Shape 2 3)), GEN_CLOSED) ∧
  next (matmul A20 B03) = (Raised DegenerateDimension, GEN_CLOSED) ∧
  matmap Z.add A23 B32 = Raise (ShapeMismatch (Shape 2 3) (Shape 3 2)).
Proof.
  split; [|split].
  - destruct (matmul_validates_lazily A23 A23) as (_ & Hm & _).
    apply Hm. split; [reflexivity|]. left. split; [simpl; lia | reflexivity].
  - destruct (matmul_validates_lazily A20 B03) as (_ & Hd & _).
    apply Hd. split; [reflexivity|]. right. repeat split.
  - destruct (matmul_validates_lazily A23 B32) as (_ & _ & _ & Hp).
    apply Hp. discriminate.
Defined.

(** ** Default methods of the protocols *)

(** C7. In a class that defines neither subtraction, [a - b] is
    [a + (-b)] and the reflected call, which computes [b - a], is
    [b + (-a)]; for [ComplexLike] and for [ComplexMatrixLike]. *)
Theorem sub_default_derived {V : Type} (C : protocols.subclass V) (a b : V) :
  protocols.cls_sub C = None → protocols.cls_rsub C = None →
  protocols.resolve_sub protocols.ComplexLike.__sub__ C a b =
    (n ← protocols.cls_neg C b; protocols.cls_add C a n) ∧
  protocols.resolve_rsub protocols.ComplexLike.__rsub__ C a b =
    (n ← protocols.cls_neg C a; protocols.cls_add C b n) ∧
  protocols.resolve_sub protocols.ComplexMatrixLike.__sub__ C a b =
    (n ← protocols.cls_neg C b; protocols.cls_add C a n) ∧
  protocols.resolve_rsub protocols.ComplexMatrixLike.__rsub__ C a b =
    (n ← protocols.cls_neg C a; protocols.cls_add C b n).
Proof.
  intros Hsub Hrsub. unfold protocols.resolve_sub, protocols.resolve_rsub.
  rewrite Hsub, Hrsub. repeat split.
Qed.

Lemma sub_default_derived_witness :
  protocols.resolve_sub protocols.ComplexLike.__sub__ int_class 7%Z 3%Z =
    Return 4%Z ∧
  protocols.resolve_rsub protocols.ComplexLike.__rsub__ int_class 7%Z 3%Z =
    Return (-4)%Z.
Proof.
  destruct (sub_default_derived int_class 7%Z 3%Z) as (Hs & Hr & _);
    [reflexivity | reflexivity |].
  split; [exact Hs | exact Hr].
Defined.

(** C8, as the code has it. [__index__] is [int(self)]: it returns or
    raises exactly what the class's [__int__] does and checks nothing
    itself, so it is lossless exactly when [__int__] is. *)
Theorem index_is_int {V : Type} (__int__ : V → Result Z)
    (is_integer : V → Z → Prop) (x : V) :
  protocols.IntegralLike.__index__ __int__ x = __int__ x ∧
  (lossless_index is_integer (protocols.IntegralLike.__index__ __int__) ↔
   lossless_index is_integer __int__).
Proof. split; [reflexivity|]. split; intros Hl; exact Hl. Qed.

(** C8, as stated, fails: for a class whose [__int__] truncates,
    [__index__] of the ratio 3/2 returns 1 and raises nothing. *)
Lemma index_truncates :
  protocols.IntegralLike.__index__ ratio_int {| numer := 3; denom := 2 |} =
    Return 1%Z ∧
  ¬ lossless_index ratio_is (protocols.IntegralLike.__index__ ratio_int).
Proof.
  split; [reflexivity|]. intros Hl.
  destruct (Hl {| numer := 3; denom := 2 |}) as [_ Hfail].
  destruct Hfail as [e He].
  - intros z. unfold ratio_is; simpl. lia.
  - discriminate He.
Qed.

(** * Further properties *)

(** ** Shapes as collections *)

(** X1. A shape iterates over its two dimensions: [len] counts them,
    [reversed] yields them in the opposite order, and an integer is
    [in] the shape exactly when it is one of them. *)
Theorem shape_is_its_dimensions (u : ShapeLike.t) (value : Z) :
  length (ShapeCollection.__iter__ u) = ShapeCollection.__len__ u ∧
  ShapeCollection.__reversed__ u = rev (ShapeCollection.__iter__ u) ∧
  (ShapeCollection.__contains__ u value = true ↔
   ∃ d, d ∈ ShapeCollection.__iter__ u ∧ Z.of_nat d = value).
Proof.
  destruct u as [m n]. split; [done|]. split; [done|].
  unfold ShapeCollection.__contains__, ShapeCollection.__iter__; simpl.
  rewrite orb_true_iff, !Z.eqb_eq. split.
  - intros [Hm|Hn]; [exists m | exists n]; split; try done.
    + by left.
    + right; by left.
  - intros (d & Hd & <-).
    apply elem_of_cons in Hd as [->|Hd]; [by left|].
    apply list_elem_of_singleton in Hd as ->. by right.
Qed.

(** X2. The size of a shape is 0 exactly when 0 is [in] the shape. *)
Theorem shape_size_zero (u : ShapeLike.t) :
  ShapeCollection.size u = 0 ↔ ShapeCollection.__contains__ u 0%Z = true.
Proof.
  destruct u as [m n].
  unfold ShapeCollection.size, ShapeCollection.__contains__; simpl.
  rewrite orb_true_iff, !Z.eqb_eq. nia.
Qed.

(** X3. Shape equality is an equivalence relation; [!=] is its
    complement; equal shapes have equal sizes, but shapes of equal
    size need not be equal. *)
Theorem shape_eq_equivalence :
  (∀ u, ShapeLike.__eq__ u u = true) ∧
  (∀ u v, ShapeLike.__eq__ u v = ShapeLike.__eq__ v u) ∧
  (∀ u v w, ShapeLike.__eq__ u v = true → ShapeLike.__eq__ v w = true →
            ShapeLike.__eq__ u w = true) ∧
  (∀ u v, ShapeLike.__eq__ u v = true →
          ShapeCollection.size u = ShapeCollection.size v) ∧
  (∃ u v, ShapeCollection.size u = ShapeCollection.size v ∧
          ShapeLike.__ne__ u v = true).
Proof.
  split; [intros u; by apply shape_eq_spec|].
  split.
  { intros [m n] [p q]. unfold ShapeLike.__eq__; simpl.
    by rewrite (Nat.eqb_sym m p), (Nat.eqb_sym n q). }
  split.
  { intros u v w ->%shape_eq_spec ->%shape_eq_spec. by apply shape_eq_spec. }
  split; [by intros u v ->%shape_eq_spec|].
  by exists (Shape 2 3), (Shape 3 2).
Qed.

Lemma shape_eq_equivalence_witness :
  ShapeLike.__eq__ (Shape 2 3) (Shape 2 3) = true ∧
  ShapeCollection.size (Shape 2 3) = ShapeCollection.size (Shape 2 3).
Proof.
  destruct shape_eq_equivalence as (Hr & _ & _ & Hs & _).
  split; [apply Hr | apply Hs, Hr].
Defined.

(** ** Matrices as collections *)

Section CollectionFacts.
Context {T : Type} `{EqDecision T, PyEq T}.
Implicit Types a : Matrix T.

(** Iteration asks for the keys below [size] and nothing else: it
    visits the storage up to [size] and raises at every key the
    storage lacks. *)
Lemma iter_general a :
  __iter__ a =
  map Return (take (size a) (items a)) ++
  replicate (size a - length (items a)) (Raise IndexError).
Proof.
  unfold __iter__. apply list_eq; intros k.
  rewrite map_fmap, list_lookup_fmap.
  destruct (decide (k < size a)) as [Hk|Hk].
  - rewrite lookup_seq_lt by done. cbn [fmap option_fmap option_map Nat.add].
    unfold __getitem__.
    destruct (decide (k < length (items a))) as [Hl|Hl].
    + rewrite lookup_app_l by (rewrite length_map, length_take; lia).
      rewrite map_fmap, list_lookup_fmap, lookup_take_lt by done.
      destruct (lookup_lt_is_Some_2 _ _ Hl) as [x Hx]. by rewrite Hx.
    + rewrite lookup_app_r by (rewrite length_map, length_take; lia).
      rewrite length_map, length_take, lookup_replicate_2 by lia.
      by rewrite lookup_ge_None_2 by lia.
  - rewrite lookup_seq_ge by lia. symmetry. apply lookup_ge_None_2.
    rewrite length_app, length_map, length_take, length_replicate. lia.
Qed.



Lemma py_any_returns (f : T → bool) (xs : list T) (rest : lazyseq T) :
  py_any (py_map f (map Return xs ++ rest)) =
  if existsb f xs then Return true else py_any (py_map f rest).
Proof.
  induction xs as [|x xs IH]; [done|].
  cbn [map app py_map py_any existsb mbind Result_bind mret Result_ret].
  destruct (f x); [done|]. apply IH.
Qed.

Lemma contains_wf a (value : T) :
  well_formed a →
  __contains__ a value =
  Return (existsb (fun x => same_or_equal x value) (items a)).
Proof.
  intros Hwf. unfold __contains__. rewrite (iter_wf a Hwf).
  rewrite <- (app_nil_r (map Return (items a))), py_any_returns.
  by destruct (existsb _ _).
Qed.

Lemma contains_member a (value : T) :
  well_formed a → value ∈ items a → __contains__ a value = Return true.
Proof.
  intros Hwf Hin. rewrite (contains_wf a value Hwf). f_equal.
  apply existsb_exists. exists value. split; [by apply list_elem_of_In|].
  unfold same_or_equal, py_is. by rewrite bool_decide_eq_true_2.
Qed.

(** X6. On a well-formed matrix [value in a] tells whether some
    element is the same object as [value] or equal to it; so every
    element of the matrix is [in] it, whatever its own [==] answers. *)
Theorem contains_elements a (value : T) :
  well_formed a →
  __contains__ a value =
    Return (existsb (fun x => same_or_equal x value) (items a)) ∧
  (value ∈ items a → __contains__ a value = Return true).
Proof.
  intros Hwf. split; [by apply contains_wf | by apply contains_member].
Qed.

(** X7. [in] stops at the first match: when the storage holds, below
    [size], an element identical or equal to [value], the answer is
    true even if the storage is shorter than the shape says. *)
Theorem contains_short_circuits a (value x : T) (k : nat) :
  k < size a → items a !! k = Some x → same_or_equal x value = true →
  __contains__ a value = Return true.
Proof.
  intros Hk Hx Hv. unfold __contains__.
  rewrite iter_general, py_any_returns.
  replace (existsb _ _) with true; [done|].
  symmetry. apply existsb_exists. exists x. split; [|done].
  apply list_elem_of_In, list_elem_of_lookup. exists k.
  by rewrite lookup_take_lt.
Qed.


End CollectionFacts.



Lemma contains_elements_witness :
  py_eq NaN NaN = false ∧ __contains__ N12 NaN = Return true.
Proof.
  split; [reflexivity|].
  destruct (contains_elements N12 NaN) as [_ Hin]; [reflexivity|].
  apply Hin. by left.
Defined.

Lemma contains_short_circuits_witness :
  __contains__ short23 3%Z = Return true ∧
  __contains__ short23 9%Z = Raise IndexError.
Proof.
  split; [|reflexivity].
  apply (contains_short_circuits short23 3%Z 3%Z 2); [cbv; lia | done | done].
Defined.


(** ** More on the comparison operators *)

Section ComparisonFacts.
Context {T : Type} `{EqDecision T, PyEq T, PyOrd T, PyArith T}.
Implicit Types a b c : Matrix T.
Implicit Types xs ys zs : list T.

(** X9. No comparison operator answers for matrices of different
    shapes: [==], [!=], [<], [<=], [>] and [>=] all raise the
    shape-mismatch [ValueError]. *)
Theorem comparisons_raise_on_mismatch a b :
  shape a ≠ shape b →
  __eq__ a (OMatrix b) = Raise (ShapeMismatch (shape a) (shape b)) ∧
  __ne__ a (OMatrix b) = Raise (ShapeMismatch (shape a) (shape b)) ∧
  __lt__ a b = Raise (ShapeMismatch (shape a) (shape b)) ∧
  __le__ a b = Raise (ShapeMismatch (shape a) (shape b)) ∧
  __gt__ a b = Raise (ShapeMismatch (shape a) (shape b)) ∧
  __ge__ a b = Raise (ShapeMismatch (shape a) (shape b)).
Proof.
  intros Hs.
  assert (__eq__ a (OMatrix b) = Raise (ShapeMismatch (shape a) (shape b))) as He.
  { unfold __eq__, is_operand, py_is.
    rewrite bool_decide_eq_false_2 by (intros ->; done).
    by rewrite (matmap_mismatch _ a b Hs). }
  unfold __ne__, __lt__, __le__, __gt__, __ge__.
  by rewrite He, (matcmp_mismatch a b Hs).
Qed.

Lemma all_pairs_symmetric xs ys :
  symmetric_eq T →
  forallb (fun p => same_or_equal p.1 p.2) (zip xs ys) =
  forallb (fun p => same_or_equal p.1 p.2) (zip ys xs).
Proof.
  intros Hsym. revert ys; induction xs as [|x xs IH]; intros [|y ys]; try done.
  cbn [zip zip_with forallb fst snd]. rewrite IH. f_equal.
  unfold same_or_equal, py_is. rewrite (Hsym x y).
  f_equal. apply bool_decide_ext. split; congruence.
Qed.

(** X10. When [==] on elements is symmetric, so is [==] on
    well-formed matrices of one shape. *)
Theorem eq_symmetric a b :
  symmetric_eq T → shape a = shape b → well_formed a → well_formed b →
  __eq__ a (OMatrix b) = __eq__ b (OMatrix a).
Proof.
  intros Hsym Hs Ha Hb.
  rewrite (eq_same_shape a b Hs Ha Hb), (eq_same_shape b a (eq_sym Hs) Hb Ha).
  unfold all_pairs. rewrite (all_pairs_symmetric _ _ Hsym).
  do 3 f_equal. unfold py_is. apply bool_decide_ext. split; congruence.
Qed.

(** X11. Over totally ordered elements [a == b] holds exactly when
    both [a <= b] and [a >= b] do, and of [a <= b] and [b <= a] at
    least one holds. *)
Theorem eq_iff_le_and_ge a b :
  total_order T → shape a = shape b → well_formed a → well_formed b →
  ∃ e le ge le',
    __eq__ a (OMatrix b) = Return (Value e) ∧
    __le__ a b = Return le ∧ __ge__ a b = Return ge ∧
    __le__ b a = Return le' ∧
    e = le && ge ∧ le || le' = true.
Proof.
  intros Htotal Hs Ha Hb.
  destruct (matcmp_loop_swap Htotal (items a) (items b))
    as (c & Hab & Hba & Hc & Hall).
  rewrite <- (matcmp_same_shape a b Hs Ha Hb) in Hab.
  rewrite <- (matcmp_same_shape b a (eq_sym Hs) Hb Ha) in Hba.
  exists (py_is a b || (c =? 0)%Z), (c <=? 0)%Z, (c >=? 0)%Z, (- c <=? 0)%Z.
  unfold __le__, __ge__. rewrite Hab, Hba.
  split; [rewrite (eq_same_shape a b Hs Ha Hb); unfold all_pairs; by rewrite Hall|].
  do 3 (split; [done|]).
  destruct (py_is a b) eqn:Hi.
  - apply bool_decide_eq_true in Hi; subst b.
    assert (c = 0%Z) as -> by (rewrite Hab in Hba; injection Hba; lia).
    by split.
  - destruct Hc as [->|[->| ->]]; by split.
Qed.

(** The loop is transitive on its answer -1 over a strict weak
    order. *)
Lemma matcmp_loop_transitive xs ys zs :
  strict_weak_order T →
  length xs = length ys → length ys = length zs →
  matcmp_loop (map Return (zip xs ys)) = Return (-1)%Z →
  matcmp_loop (map Return (zip ys zs)) = Return (-1)%Z →
  matcmp_loop (map Return (zip xs zs)) = Return (-1)%Z.
Proof.
  intros (Hconv & Hasym & Hneg).
  revert ys zs; induction xs as [|x xs IH]; intros [|y ys] [|z zs];
    try discriminate; intros Hl1 Hl2.
  cbn [zip zip_with map matcmp_loop mbind Result_bind].
  rewrite !Hconv.
  destruct (py_lt x y) eqn:Hxy.
  - intros _. destruct (py_lt y z) eqn:Hyz.
    + intros _. destruct (Hneg x y z Hxy) as [->|Hzy]; [done|].
      rewrite (Hasym z y Hzy) in Hyz. discriminate.
    + destruct (py_lt z y) eqn:Hzy; [discriminate|]. intros _.
      destruct (Hneg x y z Hxy) as [-> | Hzy2]; [done|congruence].
  - destruct (py_lt y x) eqn:Hyx; [discriminate|]. intros Hr1.
    destruct (py_lt y z) eqn:Hyz.
    + intros _. destruct (Hneg y z x Hyz) as [Hyx2 | ->]; [congruence|done].
    + destruct (py_lt z y) eqn:Hzy; [discriminate|]. intros Hr2.
      destruct (py_lt x z) eqn:Hxz.
      { destruct (Hneg x z y Hxz); congruence. }
      destruct (py_lt z x) eqn:Hzx.
      { destruct (Hneg z x y Hzx); congruence. }
      apply (IH ys zs); [simpl in *; lia | simpl in *; lia | done | done].
Qed.

Lemma lt_true_matcmp a b :
  shape a = shape b → well_formed a → well_formed b →
  (__lt__ a b = Return true ↔ matcmp a b = Return (-1)%Z).
Proof.
  intros Hs Ha Hb. unfold __lt__.
  destruct (matcmp_cases a b Hs Ha Hb) as [[-> _]|[[-> _]|[-> _]]];
    cbn [mbind Result_bind mret Result_ret]; split; by intros [=].
Qed.

(** X12. Over a strict weak order on elements, [<] on well-formed
    matrices of one shape is transitive. *)
Theorem lt_transitive a b c :
  strict_weak_order T →
  shape a = shape b → shape b = shape c →
  well_formed a → well_formed b → well_formed c →
  __lt__ a b = Return true → __lt__ b c = Return true →
  __lt__ a c = Return true.
Proof.
  intros Hswo Hab Hbc Ha Hb Hc.
  rewrite (lt_true_matcmp a b Hab Ha Hb), (lt_true_matcmp b c Hbc Hb Hc).
  rewrite (lt_true_matcmp a c (eq_trans Hab Hbc) Ha Hc).
  rewrite (matcmp_same_shape a b Hab Ha Hb), (matcmp_same_shape b c Hbc Hb Hc).
  rewrite (matcmp_same_shape a c (eq_trans Hab Hbc) Ha Hc).
  apply matcmp_loop_transitive; [done| |];
    by apply wf_same_length.
Qed.

(** X13. When neither [x < x] nor [x > x] holds for the elements of a
    well-formed matrix, it compares equal to itself: [a <= a] and
    [a >= a] hold, [a < a] and [a > a] do not. *)
Theorem matcmp_reflexive a :
  well_formed a →
  (∀ x, x ∈ items a → py_lt x x = false ∧ py_gt x x = false) →
  matcmp a a = Return 0%Z ∧
  __le__ a a = Return true ∧ __ge__ a a = Return true ∧
  __lt__ a a = Return false ∧ __gt__ a a = Return false.
Proof.
  intros Ha Hirr.
  assert (matcmp a a = Return 0%Z) as Hc.
  { rewrite (matcmp_same_shape a a eq_refl Ha Ha).
    induction (items a) as [|x xs IH]; [done|].
    cbn [zip zip_with map matcmp_loop mbind Result_bind].
    destruct (Hirr x) as [-> ->]; [by left|].
    apply IH. intros y Hy. apply Hirr. by right. }
  unfold __le__, __ge__, __lt__, __gt__. by rewrite Hc.
Qed.

End ComparisonFacts.

Lemma int_symmetric_eq : symmetric_eq Z.
Proof. intros x y. apply Z.eqb_sym. Qed.

Lemma int_strict_weak_order : strict_weak_order Z.
Proof.
  unfold strict_weak_order, py_gt, py_lt, int_ord. repeat split.
  - intros x y. apply Z.gtb_ltb.
  - intros x y Hxy%Z.ltb_lt. apply Z.ltb_ge. lia.
  - intros x y z Hxy%Z.ltb_lt. rewrite !Z.ltb_lt. lia.
Qed.

Lemma comparisons_raise_on_mismatch_witness :
  __eq__ A23 (OMatrix B32) = Raise (ShapeMismatch (Shape 2 3) (Shape 3 2)) ∧
  __lt__ A23 B32 = Raise (ShapeMismatch (Shape 2 3) (Shape 3 2)).
Proof.
  destruct (comparisons_raise_on_mismatch A23 B32) as (He & _ & Hl & _);
    [discriminate|]. by split.
Defined.

Lemma eq_symmetric_witness :
  __eq__ A12 (OMatrix B12) = __eq__ B12 (OMatrix A12).
Proof.
  apply (eq_symmetric A12 B12 int_symmetric_eq); reflexivity.
Defined.

Lemma eq_iff_le_and_ge_witness :
  ∃ e le ge le',
    __eq__ A12 (OMatrix B12) = Return (Value e) ∧
    __le__ A12 B12 = Return le ∧ __ge__ A12 B12 = Return ge ∧
    __le__ B12 A12 = Return le' ∧
    e = le && ge ∧ le || le' = true.
Proof.
  apply (eq_iff_le_and_ge A12 B12 int_total_order); reflexivity.
Defined.

Lemma lt_transitive_witness :
  __lt__ A12 (mat 14 1 2 [3; 0]%Z) = Return true.
Proof.
  apply (lt_transitive A12 B12 (mat 14 1 2 [3; 0]%Z) int_strict_weak_order);
    reflexivity.
Defined.

Lemma matcmp_reflexive_witness :
  matcmp A22 A22 = Return 0%Z ∧ __le__ A22 A22 = Return true.
Proof.
  destruct (matcmp_reflexive A22) as (Hc & Hle & _); [reflexivity| |by split].
  intros x _. split; [apply Z.ltb_irrefl|].
  unfold py_gt, int_ord. rewrite Z.gtb_ltb. apply Z.ltb_irrefl.
Defined.

(** ** More on matrix multiplication *)

Section MatmulFacts.
Context {T : Type} `{PyArith T}.
Implicit Types a b : Matrix T.

Lemma matmul_entry_raises_index a b n q i j e :
  0 < n → matmul_entry a b n q i j = Raise e → e = IndexError.
Proof.
  intros Hn. unfold matmul_entry, reduce. rewrite (seq_head n Hn). cbn [map].
  destruct (matmul_term a b n q i j 0) as [x|e'] eqn:Hk; cbn [mbind Result_bind].
  - intros Hr%reduce_from_raises. rewrite map_fmap in Hr.
    apply list_elem_of_fmap in Hr as (k' & Hk' & _).
    symmetry in Hk'. by apply matmul_term_raises in Hk'.
  - intros [= <-]. by apply matmul_term_raises in Hk.
Qed.

Lemma consume_suspended_outcome a b n q rest fuel :
  0 < n → length rest < fuel →
  (∃ L, consume fuel (GEN_SUSPENDED a b n q rest) = Some (Return L) ∧
        length L = length rest) ∨
  consume fuel (GEN_SUSPENDED a b n q rest) = Some (Raise IndexError).
Proof.
  intros Hn. revert fuel; induction rest as [|[i j] rest IH];
    intros fuel Hf; (destruct fuel as [|fuel]; [simpl in Hf; lia|]).
  - left. by exists [].
  - cbn [consume next resume].
    destruct (matmul_entry a b n q i j) as [v|e] eqn:He.
    + destruct (IH fuel) as [(L & -> & HL)| ->]; [simpl in Hf; lia| |by right].
      left. exists (v :: L). split; [done|]. simpl. by rewrite HL.
    + right. by rewrite (matmul_entry_raises_index _ _ _ _ _ _ _ Hn He).
Qed.

(** X14. With equal, positive inner dimensions, whatever the storage
    holds, consuming [matmul(a, b)] either yields [m * q] values or
    raises [IndexError]: no [ValueError] and no [TypeError]. *)
Theorem matmul_fails_only_by_index a b m n q fuel :
  shape a = Shape m n → shape b = Shape n q → 0 < n → m * q < fuel →
  (∃ L, consume fuel (matmul a b) = Some (Return L) ∧ length L = m * q) ∨
  consume fuel (matmul a b) = Some (Raise IndexError).
Proof.
  intros Hsa Hsb Hn Hf.
  assert (consume fuel (matmul a b) =
          consume fuel (GEN_SUSPENDED a b n q (i ← seq 0 m; j ← seq 0 q; [(i, j)])))
    as ->.
  { destruct fuel as [|fuel]; [lia|]. cbn [consume].
    by rewrite (next_created_valid a b m n q Hsa Hsb Hn). }
  rewrite <- (positions_length q 0 m).
  apply consume_suspended_outcome; [done|]. by rewrite positions_length.
Qed.

(** A sum whose terms all vanish leaves the accumulator as it is;
    a sum with one term that does not, started from [zero], is that
    term. *)
Section Delta.
Variables zero one : T.
Hypothesis Hunital : unital zero one.

Lemma fold_vanishing (t : nat → T) (ks : list nat) (acc : T) :
  (∀ k, k ∈ ks → t k = zero) →
  fold_left (fun acc k => py_add acc (t k)) ks acc = acc.
Proof.
  destruct Hunital as (_ & _ & _ & _ & _ & Hr).
  revert acc; induction ks as [|k ks IH]; intros acc Hz; [done|].
  cbn [fold_left]. rewrite (Hz k) by left. rewrite Hr.
  apply IH. intros k' Hk'. apply Hz. by right.
Qed.

Lemma fold_single (t : nat → T) (ks : list nat) (k0 : nat) :
  NoDup ks → k0 ∈ ks → (∀ k, k ∈ ks → k ≠ k0 → t k = zero) →
  fold_left (fun acc k => py_add acc (t k)) ks zero = t k0.
Proof.
  destruct Hunital as (_ & _ & _ & _ & Hl & Hr).
  induction ks as [|k ks IH]; intros Hnd Hin Hz.
  { by apply elem_of_nil in Hin. }
  apply NoDup_cons in Hnd as [Hk Hnd]. cbn [fold_left].
  destruct (decide (k = k0)) as [->|Hne].
  - rewrite Hl. apply fold_vanishing. intros k' Hk'.
    apply Hz; [by right|]. intros ->. done.
  - rewrite (Hz k) by (done || left). rewrite Hl.
    apply IH; [done| |].
    + apply elem_of_cons in Hin as [->|Hin]; done.
    + intros k' Hk'. apply Hz. by right.
Qed.

(** An entry whose terms vanish except at [k0] is the term at [k0]. *)
Lemma dot_single d a b n q i j k0 :
  k0 < n →
  (∀ k, k < n → k ≠ k0 →
        py_mul (cell d a (i * n + k)) (cell d b (k * q + j)) = zero) →
  dot d a b n q i j =
  py_mul (cell d a (i * n + k0)) (cell d b (k0 * q + j)).
Proof.
  intros Hk0 Hz. unfold dot.
  set (t := fun k => py_mul (cell d a (i * n + k)) (cell d b (k * q + j))).
  assert (py_mul (cell d a (i * n)) (cell d b j) = t 0) as ->.
  { unfold t. by rewrite Nat.add_0_r, Nat.mul_0_l, Nat.add_0_l. }
  change (fold_left (fun acc k => py_add acc (t k)) (seq 1 (n - 1)) (t 0) = t k0).
  destruct (decide (k0 = 0)) as [->|Hne].
  - apply fold_vanishing. intros k Hk%elem_of_seq. apply Hz; lia.
  - assert (t 0 = zero) as -> by (apply Hz; lia).
    apply fold_single; [apply NoDup_seq|apply elem_of_seq; lia|].
    intros k Hk%elem_of_seq Hkk. apply Hz; lia.
Qed.

Lemma identity_well_formed id n : well_formed (identity id n zero one).
Proof.
  unfold well_formed, identity, mat; simpl.
  by rewrite length_fmap, positions_length.
Qed.

Lemma identity_cell d id n i j :
  i < n → j < n →
  cell d (identity id n zero one) (i * n + j) = if i =? j then one else zero.
Proof.
  intros Hi Hj. unfold cell, identity, mat; simpl.
  apply nth_lookup_Some.
  by rewrite list_lookup_fmap, positions_lookup.
Qed.

(** A list of entries that are the cells of [a], position by
    position, is the storage of [a]. *)
Lemma entries_are_items d a m q (f : nat → nat → T) :
  length (items a) = m * q →
  (∀ i j, i < m → j < q → f i j = cell d a (i * q + j)) →
  map (fun p => f p.1 p.2) (i ← seq 0 m; j ← seq 0 q; [(i, j)]) = items a.
Proof.
  intros Hlen Hf. apply list_eq; intros idx.
  rewrite map_fmap, list_lookup_fmap.
  destruct (decide (idx < m * q)) as [Hidx|Hidx].
  - assert (0 < q) as Hq by nia.
    assert (idx = idx / q * q + idx mod q) as Hdm
      by (rewrite (Nat.div_mod_eq idx q) at 1; lia).
    assert (idx mod q < q) as Hj by (apply Nat.mod_upper_bound; lia).
    assert (idx / q < m) as Hi by (apply Nat.Div0.div_lt_upper_bound; lia).
    rewrite Hdm at 1. rewrite positions_lookup by done.
    cbn [fmap option_fmap option_map fst snd Nat.add].
    rewrite Hf by done. rewrite <- Hdm. unfold cell.
    destruct (nth_lookup_or_length (items a) idx d) as [->|]; [done|lia].
  - rewrite !lookup_ge_None_2; [done|lia|rewrite positions_length; lia].
Qed.

(** X15. The identity matrix is neutral for [matmul] on both sides:
    over elements with a [zero] and a [one] that behave as such,
    multiplying a well-formed matrix by the identity of the matching
    order yields the matrix's own elements, in order. *)
Theorem matmul_identity a m n id fuel :
  shape a = Shape m n → well_formed a → m * n < fuel →
  (0 < n →
   consume fuel (matmul a (identity id n zero one)) = Some (Return (items a))) ∧
  (0 < m →
   consume fuel (matmul (identity id m zero one) a) = Some (Return (items a))).
Proof.
  intros Hsa Hwa Hf.
  destruct Hunital as (Hm1 & H1m & Hm0 & H0m & _ & _).
  pose proof (length_items_a a m n Hsa Hwa) as Hlen.
  split; intros Hpos.
  - rewrite (consume_matmul a (identity id n zero one) m n n Hsa eq_refl Hwa
               (identity_well_formed id n) zero fuel Hpos Hf).
    do 2 f_equal. apply (entries_are_items zero a m n); [done|].
    intros i j Hi Hj.
    rewrite (dot_single zero a _ n n i j j Hj).
    + by rewrite identity_cell, Nat.eqb_refl, Hm1 by done.
    + intros k Hk Hkj. rewrite identity_cell by done.
      destruct (Nat.eqb_spec k j); [done|apply Hm0].
  - rewrite (consume_matmul (identity id m zero one) a m m n eq_refl Hsa
               (identity_well_formed id m) Hwa zero fuel Hpos Hf).
    do 2 f_equal. apply (entries_are_items zero a m n); [done|].
    intros i j Hi Hj.
    rewrite (dot_single zero _ a m n i j i Hi).
    + by rewrite identity_cell, Nat.eqb_refl, H1m by done.
    + intros k Hk Hki. rewrite identity_cell by done.
      destruct (Nat.eqb_spec i k); [congruence|apply H0m].
Qed.

End Delta.
End MatmulFacts.

Lemma int_unital : unital 0%Z 1%Z.
Proof.
  unfold unital, py_mul, py_add, int_arith. repeat split; intros x; lia.
Qed.

Lemma matmul_fails_only_by_index_witness :
  consume 7 (matmul short23 B32) = Some (Raise IndexError).
Proof.
  destruct (matmul_fails_only_by_index short23 B32 2 3 2 7)
    as [(L & HL & _)|Hr]; [reflexivity | reflexivity | lia | lia | | exact Hr].
  vm_compute in HL. discriminate HL.
Defined.

Lemma matmul_identity_witness :
  consume 7 (matmul A23 (identity 20 3 0%Z 1%Z)) = Some (Return (items A23)) ∧
  consume 7 (matmul (identity 21 2 0%Z 1%Z) A23) = Some (Return (items A23)).
Proof.
  destruct (matmul_identity 0%Z 1%Z int_unital A23 2 3 20 7) as [Hr _];
    [reflexivity | reflexivity | lia |].
  destruct (matmul_identity 0%Z 1%Z int_unital A23 2 3 21 7) as [_ Hl];
    [reflexivity | reflexivity | lia |].
  split; [apply Hr | apply Hl]; lia.
Defined.
